(** * globus-js: the request-construction layer of [globus.js]

    A shallow embedding of the exported operations of [globus.js].  Every
    operation reads fields of a JavaScript options bag, builds a URL by
    string concatenation, builds an options literal (and sometimes a body
    literal) and hands both to [request].  The embedding keeps that shape:
    JavaScript values are an inductive type, property reads and [throw] live
    in a small monad that also records the calls made to [request]. *)

From Stdlib Require Import ZArith List String Ascii Bool Lia DecimalString.
Import ListNotations.
Open Scope string_scope.

(** ** JavaScript values *)

Set Warnings "-register-all".

Module JS.

(** Numbers.  A JavaScript number is a double.  [Safe z] is a safe
    integer, one of magnitude below 2^53: these are the integers a double
    holds exactly and Number::toString prints digit by digit (negative zero
    behaves as zero wherever this code can look).  [Other text] is any other
    finite number (a fraction, an integer of larger magnitude), known by the
    text Number::toString prints for it, which identifies it; such a number
    is not zero.  [Int z] writes the safe integer [z]. *)
Inductive number : Type :=
| Safe (z : Z) (range : (Z.abs z <? 9007199254740992)%Z = true)
| NaN
| Infinity (negative : bool)
| Other (text : string).

Abbreviation Int z := (Safe z eq_refl) (only parsing).

(** Plain data: what a caller can put in an options bag.  An object is a
    plain object (its prototype is Object.prototype, its properties are data
    properties) given by the list of its own properties in insertion order;
    reads take the first binding of a key.  Functions, symbols and accessor
    properties are not data and have no place here. *)
Inductive value : Type :=
| Undefined
| Null
| Bool (b : bool)
| Num (n : number)
| Str (s : string)
| Arr (elems : list value)
| Obj (props : list (string * value)).

Definition number_to_string (n : number) : string :=
  match n with
  | Safe z _ => NilZero.string_of_int (Z.to_int z)
  | NaN => "NaN"
  | Infinity false => "Infinity"
  | Infinity true => "-Infinity"
  | Other text => text
  end.

(** Own-property lookup in a property list. *)
Fixpoint lookup (k : string) (props : list (string * value)) : option value :=
  match props with
  | [] => None
  | (k', v) :: rest => if String.eqb k k' then Some v else lookup k rest
  end.

(** ToString, as applied by [+] when the other operand is a string; [None]
    stands for the TypeError of a failed conversion.  An object (its
    prototype is Object.prototype) is converted by the [toString] it
    inherits, unless it has an own property of that name: data is never
    callable, so the conversion then finds no method and fails.  Arrays go
    through [join(",")], in which [undefined] and [null] elements print as
    the empty string and the other elements are converted in turn. *)
Fixpoint ToString (v : value) : option string :=
  match v with
  | Undefined => Some "undefined"
  | Null => Some "null"
  | Bool true => Some "true"
  | Bool false => Some "false"
  | Num n => Some (number_to_string n)
  | Str s => Some s
  | Obj props =>
      match lookup "toString" props with
      | Some _ => None
      | None => Some "[object Object]"
      end
  | Arr elems =>
      (fix join (l : list value) : option string :=
         match l with
         | [] => Some ""
         | x :: rest =>
             match (match x with
                    | Undefined | Null => Some ""
                    | _ => ToString x
                    end) with
             | None => None
             | Some sx =>
                 match rest with
                 | [] => Some sx
                 | _ :: _ =>
                     match join rest with
                     | None => None
                     | Some srest => Some (sx ++ "," ++ srest)
                     end
                 end
             end
         end) elems
  end.

(** ToBoolean: the falsy values are [undefined], [null], [false], zero,
    [NaN] and the empty string. *)
Definition ToBoolean (v : value) : bool :=
  match v with
  | Undefined | Null => false
  | Bool b => b
  | Num (Safe z _) => negb (Z.eqb z 0)
  | Num NaN => false
  | Num (Infinity _) => true
  | Num (Other _) => true
  | Str s => negb (String.eqb s "")
  | Arr _ | Obj _ => true
  end.

(** [a || b] *)
Definition or (a b : value) : value :=
  if ToBoolean a then a else b.

Definition nullish (v : value) : bool :=
  match v with
  | Undefined | Null => true
  | _ => false
  end.

(** The value of [o.k] for an [o] that is neither [undefined] nor [null].
    The property names read by [globus.js] are none of the built-in ones
    ([length], indices, prototype methods), so primitives and arrays
    answer [undefined]. *)
Definition prop (o : value) (k : string) : value :=
  match o with
  | Obj props =>
      match lookup k props with
      | Some v => v
      | None => Undefined
      end
  | _ => Undefined
  end.

(** Removing a key from a property list ([delete o.k]). *)
Fixpoint delete (k : string) (props : list (string * value))
  : list (string * value) :=
  match props with
  | [] => []
  | (k', v) :: rest =>
      if String.eqb k k' then delete k rest else (k', v) :: delete k rest
  end.

(** [s.slice(n)] *)
Fixpoint drop (n : nat) (s : string) : string :=
  match n, s with
  | O, _ => s
  | S n', String _ s' => drop n' s'
  | S _, EmptyString => EmptyString
  end.

(** [s.replace(pattern, replacement)] with a string pattern: only the
    first occurrence is replaced.  (The replacement strings used by the
    source contain no [$] patterns.) *)
Fixpoint replace (pattern replacement s : string) : string :=
  if String.prefix pattern s
  then replacement ++ drop (String.length pattern) s
  else match s with
       | EmptyString => EmptyString
       | String c s' => String c (replace pattern replacement s')
       end.

End JS.

Import JS.

(** ** Effects: [throw] and calls to [request] *)

Inductive error : Type :=
| Error (message : string)   (* [new Error(message)] *)
| TypeError.                 (* raised by the engine; its message is engine-specific *)

(** One call [request(url, options)]: the URL string and the options
    literal handed to the HTTP client. *)
Record request_call : Type := mkCall {
  call_url : string;
  call_options : value
}.

(** What [request] hands back: the pending response of that call. *)
Inductive promise : Type :=
| ResponseOf (call : request_call).

Inductive completion (A : Type) : Type :=
| Normal (a : A)
| Throw (e : error).
Arguments Normal {A} a.
Arguments Throw {A} e.

(** A computation threads the log of calls made to [request] so far, oldest
    first, and completes normally or abruptly. *)
Definition Eff (A : Type) : Type :=
  list request_call -> completion A * list request_call.

Definition ret {A} (a : A) : Eff A :=
  fun log => (Normal a, log).

Definition bind {A B} (m : Eff A) (k : A -> Eff B) : Eff B :=
  fun log =>
    match m log with
    | (Normal a, log') => k a log'
    | (Throw e, log') => (Throw e, log')
    end.

Definition throw {A} (e : error) : Eff A :=
  fun log => (Throw e, log).

Declare Scope eff_scope.
Delimit Scope eff_scope with eff.
Notation "x <- m ;; k" := (bind m (fun x => k))
  (at level 61, m at next level, right associativity) : eff_scope.
Notation "m ;;; k" := (bind m (fun _ => k))
  (at level 61, right associativity) : eff_scope.
Open Scope eff_scope.

(** [o.k]: reading a property of [undefined] or [null] raises a TypeError. *)
Definition Get (o : value) (k : string) : Eff value :=
  if nullish o then throw TypeError else ret (prop o k).

(** The conversion [+] makes of an operand that meets a string. *)
Definition ToStringE (v : value) : Eff string :=
  match ToString v with
  | Some s => ret s
  | None => throw TypeError
  end.

(** [o.replace(pattern, replacement)]: defined on strings; on [undefined]
    and [null] the property read fails, on any other plain datum [replace]
    is not a function.  Either way a TypeError. *)
Definition CallReplace (o : value) (pattern replacement : string) : Eff value :=
  match o with
  | Str s => ret (Str (replace pattern replacement s))
  | _ => throw TypeError
  end.

(** [require('request-promise-native')]: the call is recorded and its
    pending response returned. *)
Definition request (url : string) (options : value) : Eff promise :=
  fun log =>
    let call := mkCall url options in
    (Normal (ResponseOf call), (log ++ [call])%list).

(** Reading back a request descriptor. *)
Definition call_method (c : request_call) : value := prop (call_options c) "method".
Definition call_body (c : request_call) : value := prop (call_options c) "body".
Definition call_bearer (c : request_call) : value :=
  prop (prop (call_options c) "auth") "bearer".

(** ** [globus.js] *)

Definition transferBaseURL : string := "https://transfer.api.globusonline.org/v0.10".
Definition authBaseURL : string := "https://auth.globus.org/v2/api".

(** The operations.  Each [+] of the source has a string on its left (in
    [deleteAccessRule], on its right), so it is string concatenation: the
    option read is converted with ToString, which can throw, in the order
    the source reads and converts; the pieces are then joined (string
    concatenation is associative, so the URL is written as one
    concatenation). *)

Definition getAccessRulesList (bearerToken options : value) : Eff promise :=
  endpoint_xid <- Get options "endpoint_xid" ;;
  endpoint_xid_text <- ToStringE endpoint_xid ;;
  let url := transferBaseURL ++ "/endpoint/" ++ endpoint_xid_text ++ "/access_list" in
  request url (Obj [("auth", Obj [("bearer", bearerToken)]);
                    ("json", Bool true)]).

Definition getAccessRulesListById (bearerToken options : value) : Eff promise :=
  endpoint_xid <- Get options "endpoint_xid" ;;
  endpoint_xid_text <- ToStringE endpoint_xid ;;
  id <- Get options "id" ;;
  id_text <- ToStringE id ;;
  let url := transferBaseURL ++ "/endpoint/" ++ endpoint_xid_text
             ++ "/access/" ++ id_text in
  request url (Obj [("auth", Obj [("bearer", bearerToken)]);
                    ("json", Bool true)]).

Definition createAccessRule (bearerToken options : value) : Eff promise :=
  endpoint_xid <- Get options "endpoint_xid" ;;
  endpoint_xid_text <- ToStringE endpoint_xid ;;
  let url := transferBaseURL ++ "/endpoint/" ++ endpoint_xid_text ++ "/access" in
  userId <- Get options "userId" ;;
  path <- Get options "path" ;;
  userEmail <- Get options "userEmail" ;;
  let body := Obj [("DATA_TYPE", Str "access");
                   ("principal_type", Str "identity");
                   ("principal", userId);
                   ("path", path);
                   ("permissions", Str "r");
                   ("notify_email", userEmail)] in
  request url (Obj [("auth", Obj [("bearer", bearerToken)]);
                    ("method", Str "POST");
                    ("body", body);
                    ("json", Bool true)]).

Definition updateAccessRule (bearerToken options : value) : Eff promise :=
  endpoint_xid <- Get options "endpoint_xid" ;;
  endpoint_xid_text <- ToStringE endpoint_xid ;;
  id <- Get options "id" ;;
  id_text <- ToStringE id ;;
  let url := transferBaseURL ++ "/endpoint/" ++ endpoint_xid_text
             ++ "/access/" ++ id_text in
  id' <- Get options "id" ;;
  role_id <- Get options "role_id" ;;
  principal_type <- Get options "principal_type" ;;
  principal <- Get options "principal" ;;
  path <- Get options "path" ;;
  permissions <- Get options "permissions" ;;
  let body := Obj [("DATA_TYPE", Str "access");
                   ("id", id');
                   ("role_id", role_id);
                   ("principal_type", principal_type);
                   ("principal", principal);
                   ("path", path);
                   ("permissions", permissions)] in
  request url (Obj [("auth", Obj [("bearer", bearerToken)]);
                    ("method", Str "POST");
                    ("body", body);
                    ("json", Bool true)]).

Definition deleteAccessRule (bearerToken options : value) : Eff promise :=
  base <- Get options "transferBaseURL" ;;
  base_text <- ToStringE base ;;
  endpoint_xid <- Get options "endpoint_xid" ;;
  endpoint_xid_text <- ToStringE endpoint_xid ;;
  id <- Get options "id" ;;
  id_text <- ToStringE id ;;
  let url := base_text ++ "/endpoint/" ++ endpoint_xid_text
             ++ "/access/" ++ id_text in
  request url (Obj [("auth", Obj [("bearer", bearerToken)]);
                    ("method", Str "DELETE")]).

Definition getActivationRequirements (bearerToken options : value) : Eff promise :=
  endpoint_xid <- Get options "endpoint_xid" ;;
  endpoint_xid_text <- ToStringE endpoint_xid ;;
  let url := transferBaseURL ++ "/endpoint/" ++ endpoint_xid_text
             ++ "/activation_requirements" in
  request url (Obj [("auth", Obj [("bearer", bearerToken)])]).

Definition autoActivateEndpoint (bearerToken options : value) : Eff promise :=
  endpoint_xid <- Get options "endpoint_xid" ;;
  endpoint_xid_text <- ToStringE endpoint_xid ;;
  let url := transferBaseURL ++ "/endpoint/" ++ endpoint_xid_text ++ "/autoactivate" in
  request url (Obj [("auth", Obj [("bearer", bearerToken)]);
                    ("method", Str "POST")]).

Definition activateEndpoint (bearerToken options : value) : Eff promise :=
  endpoint_xid <- Get options "endpoint_xid" ;;
  endpoint_xid_text <- ToStringE endpoint_xid ;;
  let url := transferBaseURL ++ "/endpoint/" ++ endpoint_xid_text ++ "/activate" in
  body <- Get options "document" ;;
  request url (Obj [("auth", Obj [("bearer", bearerToken)]);
                    ("method", Str "POST");
                    ("body", body);
                    ("json", Bool true)]).

Definition deactivateEndpoint (bearerToken options : value) : Eff promise :=
  endpoint_xid <- Get options "endpoint_xid" ;;
  endpoint_xid_text <- ToStringE endpoint_xid ;;
  let url := transferBaseURL ++ "/endpoint/" ++ endpoint_xid_text ++ "/deactivate" in
  request url (Obj [("auth", Obj [("bearer", bearerToken)]);
                    ("method", Str "POST")]).

Definition getUserId (bearerToken options : value) : Eff promise :=
  userEmail <- Get options "userEmail" ;;
  encoded <- CallReplace userEmail "@" "%40" ;;
  encoded_text <- ToStringE encoded ;;
  let url := authBaseURL ++ "/identities?usernames=" ++ encoded_text in
  request url (Obj [("auth", Obj [("bearer", bearerToken)])]).

Definition getEndpointById (bearerToken options : value) : Eff promise :=
  endpoint_xid <- Get options "endpoint_xid" ;;
  endpoint_xid_text <- ToStringE endpoint_xid ;;
  let url := transferBaseURL ++ "/endpoint/" ++ endpoint_xid_text in
  request url (Obj [("auth", Obj [("bearer", bearerToken)])]).

Definition createEndpoint (bearerToken options : value) : Eff promise :=
  let url := transferBaseURL ++ "/endpoint" in
  display_name <- Get options "display_name" ;;
  documents <- Get options "documents" ;;
  let body := Obj [("display_name", display_name);
                   ("DATA", documents)] in
  request url (Obj [("auth", Obj [("bearer", bearerToken)]);
                    ("method", Str "POST");
                    ("body", body);
                    ("json", Bool true)]).

Definition createSharedEndpoint (bearerToken options : value) : Eff promise :=
  let url := transferBaseURL ++ "/shared_endpoint" in
  displayName <- Get options "displayName" ;;
  hostId <- Get options "hostId" ;;
  path <- Get options "path" ;;
  description <- Get options "description" ;;
  organization <- Get options "organization" ;;
  let body := Obj [("DATA_TYPE", Str "shared_endpoint");
                   ("display_name", displayName);
                   ("host_endpoint", hostId);
                   ("host_path", path);
                   ("description", description);
                   ("organization", organization)] in
  request url (Obj [("auth", Obj [("bearer", bearerToken)]);
                    ("method", Str "POST");
                    ("body", body);
                    ("json", Bool true)]).

Definition updateEndpointById (bearerToken options : value) : Eff promise :=
  endpoint_xid <- Get options "endpoint_xid" ;;
  endpoint_xid_text <- ToStringE endpoint_xid ;;
  let url := transferBaseURL ++ "/endpoint/" ++ endpoint_xid_text in
  body <- Get options "document" ;;
  request url (Obj [("auth", Obj [("bearer", bearerToken)]);
                    ("method", Str "POST");
                    ("body", body);
                    ("json", Bool true)]).

Definition deleteEndpointById (bearerToken options : value) : Eff promise :=
  endpoint_xid <- Get options "endpoint_xid" ;;
  endpoint_xid_text <- ToStringE endpoint_xid ;;
  let url := transferBaseURL ++ "/endpoint/" ++ endpoint_xid_text in
  request url (Obj [("auth", Obj [("bearer", bearerToken)]);
                    ("method", Str "DELETE")]).

Definition getEffectivePauseRuleList (bearerToken options : value) : Eff promise :=
  endpoint_xid <- Get options "endpoint_xid" ;;
  endpoint_xid_text <- ToStringE endpoint_xid ;;
  let url := transferBaseURL ++ "/endpoint/" ++ endpoint_xid_text
             ++ "/my_effective_pause_rule_list" in
  request url (Obj [("auth", Obj [("bearer", bearerToken)])]).

Definition getEndpointServerList (bearerToken options : value) : Eff promise :=
  endpoint_xid <- Get options "endpoint_xid" ;;
  endpoint_xid_text <- ToStringE endpoint_xid ;;
  let url := transferBaseURL ++ "/endpoint/" ++ endpoint_xid_text ++ "/server_list" in
  request url (Obj [("auth", Obj [("bearer", bearerToken)])]).

Definition getEndpointServerById (bearerToken options : value) : Eff promise :=
  endpoint_xid <- Get options "endpoint_xid" ;;
  endpoint_xid_text <- ToStringE endpoint_xid ;;
  let url := transferBaseURL ++ "/endpoint/" ++ endpoint_xid_text ++ "/server_list" in
  throw (A := unit) (Error "FIXME(param server_id not used)") ;;;
  request url (Obj [("auth", Obj [("bearer", bearerToken)])]).

Definition addEndpointServer (bearerToken options : value) : Eff promise :=
  endpoint_xid <- Get options "endpoint_xid" ;;
  endpoint_xid_text <- ToStringE endpoint_xid ;;
  let url := transferBaseURL ++ "/endpoint/" ++ endpoint_xid_text ++ "/server" in
  hostname <- Get options "hostname" ;;
  uri <- Get options "uri" ;;
  port <- Get options "port" ;;
  scheme <- Get options "scheme" ;;
  let body := Obj [("DATA_TYPE", Str "server");
                   ("hostname", hostname);
                   ("uri", uri);
                   ("port", or port (Str "2811"));
                   ("scheme", or scheme (Str "gsiftp"))] in
  request url (Obj [("auth", Obj [("bearer", bearerToken)]);
                    ("method", Str "POST");
                    ("body", body);
                    ("json", Bool true)]).

Definition updateEndpointServerById (bearerToken options : value) : Eff promise :=
  endpoint_xid <- Get options "endpoint_xid" ;;
  endpoint_xid_text <- ToStringE endpoint_xid ;;
  server_id <- Get options "server_id" ;;
  server_id_text <- ToStringE server_id ;;
  let url := transferBaseURL ++ "/endpoint/" ++ endpoint_xid_text
             ++ "/server/" ++ server_id_text in
  hostname <- Get options "hostname" ;;
  uri <- Get options "uri" ;;
  port <- Get options "port" ;;
  scheme <- Get options "scheme" ;;
  subject <- Get options "subject" ;;
  let body := Obj [("DATA_TYPE", Str "server");
                   ("hostname", hostname);
                   ("uri", uri);
                   ("port", or port (Str "2811"));
                   ("scheme", or scheme (Str "gsiftp"));
                   ("subject", subject)] in
  request url (Obj [("auth", Obj [("bearer", bearerToken)]);
                    ("method", Str "PUT");
                    ("body", body);
                    ("json", Bool true)]).

Definition deleteEndpointServerById (bearerToken options : value) : Eff promise :=
  endpoint_xid <- Get options "endpoint_xid" ;;
  endpoint_xid_text <- ToStringE endpoint_xid ;;
  server_id <- Get options "server_id" ;;
  server_id_text <- ToStringE server_id ;;
  let url := transferBaseURL ++ "/endpoint/" ++ endpoint_xid_text
             ++ "/server/" ++ server_id_text in
  request url (Obj [("auth", Obj [("bearer", bearerToken)]);
                    ("method", Str "DELETE")]).

Definition getSharedEndpointList (bearerToken options : value) : Eff promise :=
  endpoint_xid <- Get options "endpoint_xid" ;;
  endpoint_xid_text <- ToStringE endpoint_xid ;;
  let url := transferBaseURL ++ "/endpoint/" ++ endpoint_xid_text
             ++ "my_shared_endpoint_list" in
  request url (Obj [("auth", Obj [("bearer", bearerToken)])]).

Definition listDirectoryContents (bearerToken options : value) : Eff promise :=
  endpoint_xid <- Get options "endpoint_xid" ;;
  endpoint_xid_text <- ToStringE endpoint_xid ;;
  path <- Get options "path" ;;
  path_text <- ToStringE (or path (Str "/")) ;;
  query_parameters <- Get options "query_parameters" ;;
  query_parameters_text <- ToStringE (or query_parameters (Str "")) ;;
  let url := transferBaseURL ++ "/operation/endpoint/" ++ endpoint_xid_text
             ++ "/ls?path="
             ++ path_text
             ++ query_parameters_text in
  request url (Obj [("auth", Obj [("bearer", bearerToken)])]).

Definition makeDirectory (bearerToken options : value) : Eff promise :=
  endpoint_xid <- Get options "endpoint_xid" ;;
  endpoint_xid_text <- ToStringE endpoint_xid ;;
  let url := transferBaseURL ++ "/operation/endpoint/" ++ endpoint_xid_text
             ++ "/mkdir" in
  path <- Get options "path" ;;
  let body := Obj [("DATA_TYPE", Str "mkdir");
                   ("path", path)] in
  request url (Obj [("auth", Obj [("bearer", bearerToken)]);
                    ("method", Str "POST");
                    ("body", body);
                    ("json", Bool true)]).

Definition rename (bearerToken options : value) : Eff promise :=
  endpoint_xid <- Get options "endpoint_xid" ;;
  endpoint_xid_text <- ToStringE endpoint_xid ;;
  let url := transferBaseURL ++ "/operation/endpoint/" ++ endpoint_xid_text
             ++ "/rename" in
  old_path <- Get options "old_path" ;;
  new_path <- Get options "new_path" ;;
  let body := Obj [("DATA_TYPE", Str "rename");
                   ("old_path", old_path);
                   ("new_path", new_path)] in
  request url (Obj [("auth", Obj [("bearer", bearerToken)]);
                    ("method", Str "POST");
                    ("body", body);
                    ("json", Bool true)]).

Definition getSubmissionId (bearerToken : value) : Eff promise :=
  let url := transferBaseURL ++ "/submission_id" in
  request url (Obj [("auth", Obj [("bearer", bearerToken)])]).

Definition submitTransferTask (bearerToken options : value) : Eff promise :=
  let url := transferBaseURL ++ "/transfer" in
  submission_id <- Get options "submission_id" ;;
  label <- Get options "label" ;;
  notify_on_succeeded <- Get options "notify_on_succeeded" ;;
  notify_on_failed <- Get options "notify_on_failed" ;;
  notify_on_inactive <- Get options "notify_on_inactive" ;;
  source_endpoint <- Get options "source_endpoint" ;;
  destination_endpoint <- Get options "destination_endpoint" ;;
  DATA <- Get options "DATA" ;;
  encrypt_data <- Get options "encrypt_data" ;;
  sync_level <- Get options "sync_level" ;;
  verify_checksum <- Get options "verify_checksum" ;;
  preserve_timestamp <- Get options "preserve_timestamp" ;;
  delete_destination_extra <- Get options "delete_destination_extra" ;;
  let body := Obj [("DATA_TYPE", Str "transfer");
                   ("submission_id", submission_id);
                   ("label", label);
                   ("notify_on_succeeded", notify_on_succeeded);
                   ("notify_on_failed", notify_on_failed);
                   ("notify_on_inactive", notify_on_inactive);
                   ("source_endpoint", source_endpoint);
                   ("destination_endpoint", destination_endpoint);
                   ("DATA", DATA);
                   ("encrypt_data", encrypt_data);
                   ("sync_level", sync_level);
                   ("verify_checksum", verify_checksum);
                   ("preserve_timestamp", preserve_timestamp);
                   ("delete_destination_extra", delete_destination_extra)] in
  request url (Obj [("auth", Obj [("bearer", bearerToken)]);
                    ("method", Str "POST");
                    ("body", body);
                    ("json", Bool true)]).

Definition submitDeletionTask (bearerToken options : value) : Eff promise :=
  throw (A := unit) (Error "Not implemented") ;;;
  (* Refer to documentation to validate code below *)
  let url := transferBaseURL ++ "/delete" in
  endpoint <- Get options "endpoint" ;;
  recursive <- Get options "recursive" ;;
  ignore_missing <- Get options "ignore_missing" ;;
  interpret_globs <- Get options "interpret_globs" ;;
  let body := Obj [("DATA_TYPE", Str "delete");
                   ("endpoint", endpoint);
                   ("recursive", recursive);
                   ("ignore_missing", ignore_missing);
                   ("interpret_globs", interpret_globs)] in
  request url (Obj [("auth", Obj [("bearer", bearerToken)]);
                    ("method", Str "POST");
                    ("body", body);
                    ("json", Bool true)]).

(** The module's export table.  [getSubmissionId] declares one parameter
    and ignores a second argument. *)
Definition exports : list (string * (value -> value -> Eff promise)) :=
  [ ("getAccessRulesList", getAccessRulesList);
    ("getAccessRulesListById", getAccessRulesListById);
    ("createAccessRule", createAccessRule);
    ("updateAccessRule", updateAccessRule);
    ("deleteAccessRule", deleteAccessRule);
    ("getActivationRequirements", getActivationRequirements);
    ("autoActivateEndpoint", autoActivateEndpoint);
    ("activateEndpoint", activateEndpoint);
    ("deactivateEndpoint", deactivateEndpoint);
    ("getUserId", getUserId);
    ("getEndpointById", getEndpointById);
    ("createEndpoint", createEndpoint);
    ("createSharedEndpoint", createSharedEndpoint);
    ("updateEndpointById", updateEndpointById);
    ("deleteEndpointById", deleteEndpointById);
    ("getEffectivePauseRuleList", getEffectivePauseRuleList);
    ("getEndpointServerList", getEndpointServerList);
    ("getEndpointServerById", getEndpointServerById);
    ("addEndpointServer", addEndpointServer);
    ("updateEndpointServerById", updateEndpointServerById);
    ("deleteEndpointServerById", deleteEndpointServerById);
    ("getSharedEndpointList", getSharedEndpointList);
    ("listDirectoryContents", listDirectoryContents);
    ("makeDirectory", makeDirectory);
    ("rename", rename);
    ("getSubmissionId", fun bearerToken _ => getSubmissionId bearerToken);
    ("submitTransferTask", submitTransferTask);
    ("submitDeletionTask", submitDeletionTask) ].

(** ** What the claims are compared against *)

(** Every occurrence of [@] written as [%40]: the percent-encoding the
    specification asks of the e-mail lookup. *)
Fixpoint percent_encode_at (s : string) : string :=
  match s with
  | EmptyString => EmptyString
  | String c s' =>
      if Ascii.eqb c "@" then "%40" ++ percent_encode_at s'
      else String c (percent_encode_at s')
  end.

Fixpoint count_at (s : string) : nat :=
  match s with
  | EmptyString => 0
  | String c s' => (if Ascii.eqb c "@" then 1 else 0) + count_at s'
  end.

(** The URL the specification describes for the e-mail lookup. *)
Definition getUserId_spec_url (email : string) : string :=
  authBaseURL ++ "/identities?usernames=" ++ percent_encode_at email.

(** The URL the specification describes for a directory listing: the given
    path after [path=], nothing there when the path is omitted (the remote
    side then applies its own default), then the extra query parameters. *)
Definition listDirectoryContents_spec_url
  (endpoint_xid : string) (path : option string) (query_parameters : string) : string :=
  transferBaseURL ++ "/operation/endpoint/" ++ endpoint_xid ++ "/ls?path="
  ++ match path with
     | Some p => p
     | None => ""
     end
  ++ query_parameters.

(** The defaults of the server document. *)
Definition server_default (field : string) : value :=
  if String.eqb field "port" then Str "2811" else Str "gsiftp".

(** An operation that issued its request: exactly one call was added to the
    log, the promise is that call's, and the call carries [bearerToken] as
    its [auth.bearer].  An operation that threw: nothing was added. *)
Definition sends_with_bearer (bearerToken : value) (log : list request_call)
  (r : completion promise * list request_call) : Prop :=
  match r with
  | (Normal p, log') =>
      exists call, p = ResponseOf call /\ log' = (log ++ [call])%list
                   /\ call_bearer call = bearerToken
  | (Throw _, log') => log' = log
  end.

(** ** Reading outcomes *)

(** Values other than bags that are neither [undefined] nor [null]:
    every property [globus.js] reads from them is [undefined]. *)
Definition propertyless (v : value) : bool :=
  match v with
  | Bool _ | Num _ | Str _ | Arr _ => true
  | Undefined | Null | Obj _ => false
  end.

(** Whether an object literal has the key at all (a key bound to
    [undefined] counts). *)
Definition has_key (o : value) (k : string) : bool :=
  match o with
  | Obj props =>
      match lookup k props with
      | Some _ => true
      | None => false
      end
  | _ => false
  end.

(** The URL of the request an outcome issued, if it issued one. *)
Definition url_of (r : completion promise * list request_call) : option string :=
  match r with
  | (Normal (ResponseOf call), _) => Some (call_url call)
  | (Throw _, _) => None
  end.

(** The options literal of the request an outcome issued, if it issued one. *)
Definition options_of (r : completion promise * list request_call) : option value :=
  match r with
  | (Normal (ResponseOf call), _) => Some (call_options call)
  | (Throw _, _) => None
  end.

(** The base URL an exported operation addresses. *)
Definition base_of (name : string) : string :=
  if String.eqb name "getUserId" then authBaseURL else transferBaseURL.

(** The outcome, if it issued a request, sent it under [base]. *)
Definition targets (base : string) (r : completion promise * list request_call) : Prop :=
  match url_of r with
  | Some url => String.prefix base url = true
  | None => True
  end.

(** The shape of an options literal: the method is absent (GET), POST, PUT
    or DELETE; a body comes with [json: true] and with POST or PUT; PUT
    comes with a body. *)
Definition descriptor_shape (options : value) : Prop :=
  let method := prop options "method" in
  (method = Undefined \/ method = Str "POST" \/ method = Str "PUT"
   \/ method = Str "DELETE")
  /\ (has_key options "body" = true ->
      prop options "json" = Bool true
      /\ (method = Str "POST" \/ method = Str "PUT"))
  /\ (method = Str "PUT" -> has_key options "body" = true).

Definition shaped (r : completion promise * list request_call) : Prop :=
  match options_of r with
  | Some options => descriptor_shape options
  | None => True
  end.

(** The option fields [submitTransferTask] copies into its body. *)
Definition transfer_fields : list string :=
  [ "submission_id"; "label"; "notify_on_succeeded"; "notify_on_failed";
    "notify_on_inactive"; "source_endpoint"; "destination_endpoint"; "DATA";
    "encrypt_data"; "sync_level"; "verify_checksum"; "preserve_timestamp";
    "delete_destination_extra" ].

(** ** Properties *)

Section PropertyLists.

Variable props : list (string * value).

Lemma Get_object (k : string) :
  Get (Obj props) k = ret (prop (Obj props) k).
Proof. reflexivity. Qed.

Lemma lookup_delete_same (k : string) :
  lookup k (delete k props) = None.
Proof.
  induction props as [|[k' v] rest IH]; simpl.
  - reflexivity.
  - destruct (String.eqb k k') eqn:E; simpl.
    + exact IH.
    + rewrite E. exact IH.
Qed.

Lemma lookup_delete_other (k k' : string) :
  k <> k' -> lookup k' (delete k props) = lookup k' props.
Proof.
  intros Hne.
  induction props as [|[k0 v] rest IH]; simpl.
  - reflexivity.
  - destruct (String.eqb k k0) eqn:E; simpl.
    + apply String.eqb_eq in E. subst k0.
      destruct (String.eqb k' k) eqn:E'.
      * apply String.eqb_eq in E'. congruence.
      * exact IH.
    + destruct (String.eqb k' k0); [reflexivity | exact IH].
Qed.

Lemma prop_delete_other (k k' : string) :
  k <> k' -> prop (Obj (delete k props)) k' = prop (Obj props) k'.
Proof. intros Hne. simpl. rewrite lookup_delete_other by exact Hne. reflexivity. Qed.

Lemma prop_absent (k : string) :
  lookup k props = None -> prop (Obj props) k = Undefined.
Proof. intros H. simpl. rewrite H. reflexivity. Qed.

End PropertyLists.

Lemma or_falsy (a b : value) : ToBoolean a = false -> or a b = b.
Proof. intros H. unfold or. rewrite H. reflexivity. Qed.

Lemma ToStringE_some (v : value) (s : string) :
  ToString v = Some s -> ToStringE v = ret s.
Proof. intros H. unfold ToStringE. rewrite H. reflexivity. Qed.

Lemma ToStringE_none (v : value) :
  ToString v = None -> ToStringE v = throw TypeError.
Proof. intros H. unfold ToStringE. rewrite H. reflexivity. Qed.

(** Splits on every conversion the goal waits for. *)
Ltac convert_all :=
  unfold ToStringE;
  repeat match goal with
         | |- context [match ToString ?v with _ => _ end] =>
             destruct (ToString v) as [?|] eqn:?; unfold ret, throw; cbv beta iota
         end.

(** *** Access rules *)

(** [deleteAccessRule] on an options bag: three conversions, the first of
    whatever the bag holds under [transferBaseURL], then a DELETE request. *)
Lemma deleteAccessRule_request (bearerToken : value) (props : list (string * value))
  (log : list request_call) :
  deleteAccessRule bearerToken (Obj props) log =
  (base <- ToStringE (prop (Obj props) "transferBaseURL") ;;
   endpoint_xid <- ToStringE (prop (Obj props) "endpoint_xid") ;;
   id <- ToStringE (prop (Obj props) "id") ;;
   request (base ++ "/endpoint/" ++ endpoint_xid ++ "/access/" ++ id)
     (Obj [("auth", Obj [("bearer", bearerToken)]); ("method", Str "DELETE")]))
    log.
Proof. reflexivity. Qed.

(** C1: [deleteAccessRule] on the bag [{endpoint_xid: "abc", id: 5}] issues a
    DELETE request, but to the URL [undefined/endpoint/abc/access/5]: the
    base is read from [options.transferBaseURL], which the bag does not
    have, so the URL is not the transfer-management base URL followed by
    [/endpoint/abc/access/5]. *)
Theorem deleteAccessRule_url_base_undefined :
  exists call,
    deleteAccessRule (Str "token")
      (Obj [("endpoint_xid", Str "abc"); ("id", Num (Int 5))]) []
    = (Normal (ResponseOf call), [call])
    /\ call_method call = Str "DELETE"
    /\ call_url call = "undefined/endpoint/abc/access/5"
    /\ call_url call <> transferBaseURL ++ "/endpoint/" ++ "abc" ++ "/access/" ++ "5".
Proof.
  eexists. split; [cbv; reflexivity|].
  split; [reflexivity|].
  split; [reflexivity|].
  vm_compute. discriminate.
Qed.

(** [createAccessRule] on an options bag: the [permissions] entry of the
    body is the literal ['r']. *)
Lemma createAccessRule_request (bearerToken : value) (props : list (string * value))
  (log : list request_call) :
  createAccessRule bearerToken (Obj props) log =
  (endpoint_xid <- ToStringE (prop (Obj props) "endpoint_xid") ;;
   request (transferBaseURL ++ "/endpoint/" ++ endpoint_xid ++ "/access")
     (Obj [("auth", Obj [("bearer", bearerToken)]);
           ("method", Str "POST");
           ("body", Obj [("DATA_TYPE", Str "access");
                         ("principal_type", Str "identity");
                         ("principal", prop (Obj props) "userId");
                         ("path", prop (Obj props) "path");
                         ("permissions", Str "r");
                         ("notify_email", prop (Obj props) "userEmail")]);
           ("json", Bool true)]))
    log.
Proof. reflexivity. Qed.

(** C2: [createAccessRule] on a bag that asks for [permissions: "rw"] sends
    a body whose [permissions] is ["r"]: the caller-supplied permission is
    not carried.  Principal, path and notification e-mail are. *)
Theorem createAccessRule_permissions_not_carried :
  exists call,
    createAccessRule (Str "token")
      (Obj [("endpoint_xid", Str "abc"); ("userId", Str "u-1"); ("path", Str "/data/");
            ("permissions", Str "rw"); ("userEmail", Str "user@example.org")]) []
    = (Normal (ResponseOf call), [call])
    /\ prop (call_body call) "permissions" = Str "r"
    /\ prop (call_body call) "permissions" <> Str "rw"
    /\ prop (call_body call) "principal" = Str "u-1"
    /\ prop (call_body call) "path" = Str "/data/"
    /\ prop (call_body call) "notify_email" = Str "user@example.org".
Proof.
  eexists. split; [cbv; reflexivity|].
  repeat split; try reflexivity.
  vm_compute. discriminate.
Qed.

(** *** Unfinished operations *)

(** C3: [submitDeletionTask] throws [Error('Not implemented')] whatever its
    arguments are, and the log of calls to [request] is left as it was. *)
Theorem submitDeletionTask_not_implemented (bearerToken options : value)
  (log : list request_call) :
  submitDeletionTask bearerToken options log = (Throw (Error "Not implemented"), log).
Proof. reflexivity. Qed.

(** C4: [getEndpointServerById] never reaches [request]: for every token
    and every options argument it throws and leaves the log of calls as it
    was.  What it throws is [Error('FIXME(param server_id not used)')],
    unless building the URL already failed with a TypeError: the options are
    [undefined] or [null], or the [endpoint_xid] of the bag cannot be
    converted to a string. *)
Theorem getEndpointServerById_throws_before_request (bearerToken options : value)
  (log : list request_call) :
  getEndpointServerById bearerToken options log
  = (Throw (if nullish options then TypeError
            else match ToString (prop options "endpoint_xid") with
                 | Some _ => Error "FIXME(param server_id not used)"
                 | None => TypeError
                 end), log).
Proof.
  unfold getEndpointServerById, Get.
  destruct (nullish options); [reflexivity|].
  unfold bind, ret. convert_all; reflexivity.
Qed.

(** *** Servers *)

(** C5: when the bag has neither [port] nor [scheme], the request
    [addEndpointServer] produces has a body with [port: "2811"] and
    [scheme: "gsiftp"]; it produces that request whenever the
    [endpoint_xid] of the bag converts to a string, and otherwise throws a
    TypeError without a request. *)
Theorem addEndpointServer_defaults_when_omitted (bearerToken : value)
  (props : list (string * value)) (log : list request_call) :
  lookup "port" props = None ->
  lookup "scheme" props = None ->
  addEndpointServer bearerToken (Obj props) log =
  match ToString (prop (Obj props) "endpoint_xid") with
  | Some endpoint_xid =>
      request (transferBaseURL ++ "/endpoint/" ++ endpoint_xid ++ "/server")
        (Obj [("auth", Obj [("bearer", bearerToken)]);
              ("method", Str "POST");
              ("body", Obj [("DATA_TYPE", Str "server");
                            ("hostname", prop (Obj props) "hostname");
                            ("uri", prop (Obj props) "uri");
                            ("port", Str "2811");
                            ("scheme", Str "gsiftp")]);
              ("json", Bool true)])
        log
  | None => (Throw TypeError, log)
  end.
Proof.
  intros Hport Hscheme.
  unfold addEndpointServer.
  rewrite !Get_object. unfold bind, ret.
  rewrite (prop_absent props "port" Hport), (prop_absent props "scheme" Hscheme).
  convert_all; reflexivity.
Qed.

Lemma addEndpointServer_defaults_when_omitted_witness :
  addEndpointServer (Str "token")
    (Obj [("endpoint_xid", Str "abc"); ("hostname", Str "gridftp.example.org")]) []
  = request "https://transfer.api.globusonline.org/v0.10/endpoint/abc/server"
      (Obj [("auth", Obj [("bearer", Str "token")]);
            ("method", Str "POST");
            ("body", Obj [("DATA_TYPE", Str "server");
                          ("hostname", Str "gridftp.example.org");
                          ("uri", Undefined);
                          ("port", Str "2811");
                          ("scheme", Str "gsiftp")]);
            ("json", Bool true)])
      [].
Proof.
  exact (addEndpointServer_defaults_when_omitted (Str "token")
           [("endpoint_xid", Str "abc"); ("hostname", Str "gridftp.example.org")] []
           eq_refl eq_refl).
Defined.

(** *** Shared endpoints *)

(** C7: [getSharedEndpointList] on the bag [{endpoint_xid: "abc"}] requests
    [.../endpoint/abcmy_shared_endpoint_list]: there is no separator between
    the endpoint identifier and the final segment. *)
Theorem getSharedEndpointList_url_lacks_separator :
  exists call,
    getSharedEndpointList (Str "token") (Obj [("endpoint_xid", Str "abc")]) []
    = (Normal (ResponseOf call), [call])
    /\ call_url call = transferBaseURL ++ "/endpoint/" ++ "abc" ++ "my_shared_endpoint_list"
    /\ call_url call <> transferBaseURL ++ "/endpoint/" ++ "abc" ++ "/my_shared_endpoint_list".
Proof.
  eexists. split; [cbv; reflexivity|].
  split; [reflexivity|].
  vm_compute. discriminate.
Qed.
(** *** Identity lookup *)

Lemma replace_at_cons (c : ascii) (s : string) :
  replace "@" "%40" (String c s)
  = if Ascii.eqb c "@" then "%40" ++ s else String c (replace "@" "%40" s).
Proof.
  cbn [replace String.prefix String.length drop].
  destruct (ascii_dec "@" c) as [<- | Hne].
  - destruct s; reflexivity.
  - destruct (Ascii.eqb c "@") eqn:E.
    + apply Ascii.eqb_eq in E. congruence.
    + reflexivity.
Qed.

Lemma percent_encode_at_id (s : string) :
  count_at s = 0 -> percent_encode_at s = s.
Proof.
  induction s as [|c s IH]; simpl; intros H.
  - reflexivity.
  - destruct (Ascii.eqb c "@").
    + discriminate.
    + rewrite IH by exact H. reflexivity.
Qed.

(** With at most one [@], replacing the first occurrence replaces them all. *)
Lemma replace_first_at_is_all (s : string) :
  count_at s <= 1 -> replace "@" "%40" s = percent_encode_at s.
Proof.
  induction s as [|c s IH]; intros H.
  - reflexivity.
  - rewrite replace_at_cons. simpl in *.
    destruct (Ascii.eqb c "@").
    + rewrite percent_encode_at_id by lia. reflexivity.
    + rewrite IH by exact H. reflexivity.
Qed.

(** The request [getUserId] builds when [userEmail] is a string. *)
Lemma getUserId_request (bearerToken : value) (props : list (string * value))
  (email : string) (log : list request_call) :
  prop (Obj props) "userEmail" = Str email ->
  getUserId bearerToken (Obj props) log =
  request (authBaseURL ++ "/identities?usernames=" ++ replace "@" "%40" email)
          (Obj [("auth", Obj [("bearer", bearerToken)])]) log.
Proof.
  intros H. unfold getUserId. rewrite Get_object. unfold bind, ret.
  rewrite H. reflexivity.
Qed.

(** C6: for the e-mail [a@b@c.org] the URL produced by [getUserId] still
    has an [@] in it: [replace] with a string pattern rewrites the first
    occurrence only, so the second [@] is not percent-encoded. *)
Lemma getUserId_second_at_not_encoded :
  exists call,
    getUserId (Str "token") (Obj [("userEmail", Str "a@b@c.org")]) []
    = (Normal (ResponseOf call), [call])
    /\ call_url call = authBaseURL ++ "/identities?usernames=" ++ "a%40b@c.org"
    /\ call_url call <> getUserId_spec_url "a@b@c.org".
Proof.
  eexists. split; [cbv; reflexivity|].
  split; [reflexivity|].
  vm_compute. discriminate.
Qed.

(** For an e-mail string with at most one [@], the URL produced by
    [getUserId] has every [@] of the e-mail written as [%40] in the
    [usernames] query parameter. *)
Theorem getUserId_encodes_single_at (bearerToken : value)
  (props : list (string * value)) (email : string) (log : list request_call) :
  prop (Obj props) "userEmail" = Str email ->
  count_at email <= 1 ->
  getUserId bearerToken (Obj props) log =
  request (getUserId_spec_url email)
          (Obj [("auth", Obj [("bearer", bearerToken)])]) log.
Proof.
  intros Hemail Hcount.
  rewrite (getUserId_request _ _ _ _ Hemail).
  unfold getUserId_spec_url.
  rewrite replace_first_at_is_all by exact Hcount.
  reflexivity.
Qed.

Lemma getUserId_encodes_single_at_witness :
  getUserId (Str "token") (Obj [("userEmail", Str "user@example.org")]) []
  = request "https://auth.globus.org/v2/api/identities?usernames=user%40example.org"
      (Obj [("auth", Obj [("bearer", Str "token")])]) [].
Proof.
  apply (getUserId_encodes_single_at (Str "token")
           [("userEmail", Str "user@example.org")] "user@example.org" []).
  - reflexivity.
  - vm_compute. lia.
Defined.

(** *** Directory listing *)

Lemma ToString_or_empty (q : string) : ToString (or (Str q) (Str "")) = Some q.
Proof.
  unfold or. simpl. destruct (String.eqb q "") eqn:E; simpl.
  - apply String.eqb_eq in E. congruence.
  - reflexivity.
Qed.

(** C9: with the path omitted, the URL produced by [listDirectoryContents]
    names the path [/] itself instead of leaving the parameter to the remote
    side, whose default depends on the type of endpoint.  The extra query
    parameters follow verbatim. *)
Lemma listDirectoryContents_omitted_path_sent_as_root :
  exists call,
    listDirectoryContents (Str "token")
      (Obj [("endpoint_xid", Str "abc"); ("query_parameters", Str "&limit=5")]) []
    = (Normal (ResponseOf call), [call])
    /\ call_url call
       = transferBaseURL ++ "/operation/endpoint/abc/ls?path=" ++ "/" ++ "&limit=5"
    /\ call_url call <> listDirectoryContents_spec_url "abc" None "&limit=5".
Proof.
  eexists. split; [cbv; reflexivity|].
  split; [reflexivity|].
  vm_compute. discriminate.
Qed.

(** The URL of a directory listing.  [path] and [query_parameters] are
    strings or omitted: an omitted or empty path is sent as [/], any other
    path as it is, and the query parameters follow verbatim (nothing when
    omitted).  The request is issued whenever the [endpoint_xid] of the bag
    converts to a string. *)
Theorem listDirectoryContents_url (bearerToken : value)
  (props : list (string * value)) (path query_parameters : option string)
  (log : list request_call) :
  lookup "path" props = option_map Str path ->
  lookup "query_parameters" props = option_map Str query_parameters ->
  listDirectoryContents bearerToken (Obj props) log =
  match ToString (prop (Obj props) "endpoint_xid") with
  | Some endpoint_xid =>
      request (transferBaseURL ++ "/operation/endpoint/" ++ endpoint_xid ++ "/ls?path="
               ++ match path with
                  | Some p => if String.eqb p "" then "/" else p
                  | None => "/"
                  end
               ++ match query_parameters with
                  | Some q => q
                  | None => ""
                  end)
        (Obj [("auth", Obj [("bearer", bearerToken)])]) log
  | None => (Throw TypeError, log)
  end.
Proof.
  intros Hpath Hquery. unfold listDirectoryContents.
  rewrite !Get_object. unfold bind, ret.
  assert (Hp : or (prop (Obj props) "path") (Str "/")
               = Str match path with
                     | Some p => if String.eqb p "" then "/" else p
                     | None => "/"
                     end).
  { unfold prop. rewrite Hpath. destruct path as [p|]; simpl; [|reflexivity].
    unfold or. simpl. destruct (String.eqb p ""); reflexivity. }
  assert (Hq : ToString (or (prop (Obj props) "query_parameters") (Str ""))
               = Some match query_parameters with
                      | Some q => q
                      | None => ""
                      end).
  { unfold prop. rewrite Hquery. destruct query_parameters as [q|]; simpl; [|reflexivity].
    rewrite ToString_or_empty. reflexivity. }
  destruct (ToString (prop (Obj props) "endpoint_xid")) as [endpoint_xid|] eqn:Hx.
  - rewrite (ToStringE_some _ _ Hx), Hp, (ToStringE_some _ _ Hq),
      (ToStringE_some (Str _) _ eq_refl).
    reflexivity.
  - rewrite (ToStringE_none _ Hx). reflexivity.
Qed.

Lemma listDirectoryContents_url_witness :
  listDirectoryContents (Str "token") (Obj [("endpoint_xid", Str "abc")]) []
  = request
      "https://transfer.api.globusonline.org/v0.10/operation/endpoint/abc/ls?path=/"
      (Obj [("auth", Obj [("bearer", Str "token")])]) [].
Proof.
  exact (listDirectoryContents_url (Str "token") [("endpoint_xid", Str "abc")]
           None None [] eq_refl eq_refl).
Defined.

(** *** Falsy [port] and [scheme] *)

Ltac read_bag :=
  rewrite !Get_object; unfold bind, ret.

Ltac forget_deleted field :=
  repeat match goal with
         | |- context [prop (Obj (delete field ?ps)) ?k] =>
             first
               [ rewrite (prop_delete_other ps field k) by discriminate
               | rewrite (prop_absent (delete field ps) k (lookup_delete_same ps k)) ]
         end.

(** C10: in [addEndpointServer] and [updateEndpointServerById], a [port]
    or [scheme] whose value is falsy (absent, [""], [0], [null], ...) is
    replaced by its default, ["2811"] or ["gsiftp"]: the outcome is the one
    for the bag without that field, and the body of the request carries the
    default.  (The request is issued whenever the identifiers spliced into
    the URL convert to strings; otherwise a TypeError is thrown.) *)
Theorem falsy_server_field_defaults (bearerToken : value)
  (props : list (string * value)) (field : string) (log : list request_call) :
  field = "port" \/ field = "scheme" ->
  ToBoolean (prop (Obj props) field) = false ->
  addEndpointServer bearerToken (Obj props) log
    = addEndpointServer bearerToken (Obj (delete field props)) log
  /\ updateEndpointServerById bearerToken (Obj props) log
    = updateEndpointServerById bearerToken (Obj (delete field props)) log
  /\ match ToString (prop (Obj props) "endpoint_xid") with
     | Some _ =>
         exists call,
           addEndpointServer bearerToken (Obj props) log
             = (Normal (ResponseOf call), (log ++ [call])%list)
           /\ prop (call_body call) field = server_default field
     | None =>
         addEndpointServer bearerToken (Obj props) log = (Throw TypeError, log)
     end
  /\ match ToString (prop (Obj props) "endpoint_xid"),
           ToString (prop (Obj props) "server_id") with
     | Some _, Some _ =>
         exists call,
           updateEndpointServerById bearerToken (Obj props) log
             = (Normal (ResponseOf call), (log ++ [call])%list)
           /\ prop (call_body call) field = server_default field
     | _, _ =>
         updateEndpointServerById bearerToken (Obj props) log = (Throw TypeError, log)
     end.
Proof.
  intros [-> | ->] Hfalsy;
    unfold addEndpointServer, updateEndpointServerById; read_bag;
    rewrite (or_falsy _ _ Hfalsy).
  - forget_deleted "port".
    repeat split; convert_all; try reflexivity; eexists; split; reflexivity.
  - forget_deleted "scheme".
    repeat split; convert_all; try reflexivity; eexists; split; reflexivity.
Qed.

Lemma falsy_server_field_defaults_witness :
  addEndpointServer (Str "token")
    (Obj [("endpoint_xid", Str "abc"); ("port", Num (Int 0)); ("scheme", Str "ftp")]) []
  = addEndpointServer (Str "token")
      (Obj [("endpoint_xid", Str "abc"); ("scheme", Str "ftp")]) []
  /\ exists call,
       updateEndpointServerById (Str "token")
         (Obj [("endpoint_xid", Str "abc"); ("port", Num (Int 0)); ("scheme", Str "ftp")]) []
       = (Normal (ResponseOf call), [call])
       /\ prop (call_body call) "port" = Str "2811".
Proof.
  destruct (falsy_server_field_defaults (Str "token")
              [("endpoint_xid", Str "abc"); ("port", Num (Int 0)); ("scheme", Str "ftp")]
              "port" [])
    as (Hadd & _ & _ & Hupd).
  - left. reflexivity.
  - reflexivity.
  - split; [exact Hadd | exact Hupd].
Defined.

(** *** Bearer authorization *)

Lemma Get_defined (o : value) (k : string) :
  nullish o = false -> Get o k = ret (prop o k).
Proof. intros H. unfold Get. rewrite H. reflexivity. Qed.

Lemma Get_nullish (o : value) (k : string) :
  nullish o = true -> Get o k = throw TypeError.
Proof. intros H. unfold Get. rewrite H. reflexivity. Qed.

Lemma request_sends (bearerToken : value) (url : string) (options : value)
  (log : list request_call) :
  prop (prop options "auth") "bearer" = bearerToken ->
  sends_with_bearer bearerToken log (request url options log).
Proof.
  intros H. unfold sends_with_bearer, request.
  eexists. repeat split. exact H.
Qed.

Lemma getUserId_sends (bearerToken options : value) (log : list request_call) :
  sends_with_bearer bearerToken log (getUserId bearerToken options log).
Proof.
  unfold getUserId.
  destruct (nullish options) eqn:Hn.
  - rewrite (Get_nullish _ _ Hn). reflexivity.
  - rewrite (Get_defined _ _ Hn). unfold bind, ret.
    destruct (prop options "userEmail"); try reflexivity.
    apply request_sends. reflexivity.
Qed.

(** One entry of the export table: either the first property read throws
    (nullish options), or a [throw] statement is reached, or control
    reaches the single [request] call. *)
Ltac one_operation options :=
  cbv beta;
  first
    [ apply getUserId_sends
    | match goal with
      | |- sends_with_bearer _ _ (?op _ _ _) => unfold op
      | |- sends_with_bearer _ _ (?op _ _) => unfold op
      end;
      destruct (nullish options) eqn:Hn;
      [ rewrite ?(Get_nullish _ _ Hn) | rewrite ?(Get_defined _ _ Hn) ];
      unfold bind, ret; convert_all;
      first [ reflexivity | apply request_sends; reflexivity ] ].

(** C8: every exported operation, for every bearer token, every options
    argument and every earlier log, either throws without calling
    [request], or calls [request] exactly once with an options literal
    whose [auth.bearer] is the caller's bearer token. *)
Theorem exports_send_bearer (name : string) (f : value -> value -> Eff promise) :
  In (name, f) exports ->
  forall (bearerToken options : value) (log : list request_call),
    sends_with_bearer bearerToken log (f bearerToken options log).
Proof.
  intros Hin bearerToken options log.
  cbv [exports In] in Hin.
  repeat (destruct Hin as [Heq | Hin];
          [ injection Heq as _ <-; one_operation options | ]).
  contradiction.
Qed.

Lemma exports_send_bearer_witness :
  sends_with_bearer (Str "token") []
    (deleteEndpointById (Str "token") (Obj [("endpoint_xid", Str "abc")]) []).
Proof.
  apply (exports_send_bearer "deleteEndpointById" deleteEndpointById).
  cbv [exports In]. do 14 right. left. reflexivity.
Defined.

(** ** Further properties of the export table *)

(** Case analysis over the entries of [exports]: [tac] is run on each entry,
    with the entry's name and function substituted. *)
Ltac each_export Hin tac :=
  cbv [exports In] in Hin;
  repeat (destruct Hin as [Heq | Hin]; [ injection Heq as <- <-; tac | ]);
  try contradiction.

(** Runs an operation up to its outcome: the first property read throws
    (nullish options), or the body is run to its [throw] or [request]. *)
Ltac run_operation options :=
  cbv beta;
  match goal with
  | |- context [?op _ options _] => unfold op
  | |- context [getSubmissionId _ _] => unfold getSubmissionId
  end;
  destruct (nullish options) eqn:Hn;
  [ rewrite ?(Get_nullish _ _ Hn) | rewrite ?(Get_defined _ _ Hn) ];
  unfold bind, ret; convert_all.

Lemma prefix_app (s t : string) : String.prefix s (s ++ t) = true.
Proof.
  induction s as [|c s IH]; simpl.
  - destruct t; reflexivity.
  - destruct (ascii_dec c c) as [_ | Hne]; [exact IH | congruence].
Qed.

Lemma targets_request (base url : string) (options : value) (log : list request_call) :
  String.prefix base url = true -> targets base (request url options log).
Proof. intros H. exact H. Qed.

Lemma shaped_request (url : string) (options : value) (log : list request_call) :
  descriptor_shape options -> shaped (request url options log).
Proof. intros H. exact H. Qed.

Ltac descriptor_shape_literal :=
  unfold descriptor_shape; simpl;
  split; [ auto 6 | split; intros H; first [ discriminate H | auto ] ].

(** Every exported operation except [getSubmissionId] and
    [submitDeletionTask] reads a property of its options first: called with
    [undefined] or [null] options (or with the options left out) it throws a
    TypeError and issues no request. *)
Theorem exports_nullish_options_throw (name : string)
  (f : value -> value -> Eff promise) :
  In (name, f) exports ->
  name <> "getSubmissionId" ->
  name <> "submitDeletionTask" ->
  forall (bearerToken options : value) (log : list request_call),
    nullish options = true ->
    f bearerToken options log = (Throw TypeError, log).
Proof.
  intros Hin Hsub Hdel bearerToken options log Hnull.
  each_export Hin
    ltac:(first [ exfalso; apply Hsub; reflexivity
                | exfalso; apply Hdel; reflexivity
                | destruct options; try discriminate Hnull; reflexivity ]).
Qed.

Lemma exports_nullish_options_throw_witness :
  makeDirectory (Str "token") Undefined [] = (Throw TypeError, []).
Proof.
  apply (exports_nullish_options_throw "makeDirectory" makeDirectory).
  - cbv [exports In]. do 23 right. left. reflexivity.
  - discriminate.
  - discriminate.
  - reflexivity.
Defined.

(** Options that are not a bag (a string, a number, a boolean, an array)
    are not rejected: every exported operation behaves on them exactly as
    on the empty bag [{}]. *)
Theorem exports_propertyless_options_as_empty_bag (name : string)
  (f : value -> value -> Eff promise) :
  In (name, f) exports ->
  forall (bearerToken options : value) (log : list request_call),
    propertyless options = true ->
    f bearerToken options log = f bearerToken (Obj []) log.
Proof.
  intros Hin bearerToken options log Hprim.
  each_export Hin
    ltac:(destruct options; try discriminate Hprim; reflexivity).
Qed.

Lemma exports_propertyless_options_as_empty_bag_witness :
  deactivateEndpoint (Str "token") (Str "badCode") []
  = deactivateEndpoint (Str "token") (Obj []) [].
Proof.
  apply (exports_propertyless_options_as_empty_bag "deactivateEndpoint" deactivateEndpoint).
  - cbv [exports In]. do 8 right. left. reflexivity.
  - reflexivity.
Defined.

Lemma getUserId_targets (bearerToken options : value) (log : list request_call) :
  targets authBaseURL (getUserId bearerToken options log).
Proof.
  run_operation options.
  - exact I.
  - destruct (prop options "userEmail"); try exact I.
    apply targets_request, prefix_app.
Qed.

(** Every request issued by an exported operation other than
    [deleteAccessRule] goes to a URL under the base of its API: the identity
    API for [getUserId], the transfer API for all others. *)
Theorem exports_target_their_base (name : string)
  (f : value -> value -> Eff promise) :
  In (name, f) exports ->
  name <> "deleteAccessRule" ->
  forall (bearerToken options : value) (log : list request_call),
    targets (base_of name) (f bearerToken options log).
Proof.
  intros Hin Hdel bearerToken options log.
  each_export Hin
    ltac:(first [ exfalso; apply Hdel; reflexivity
                | apply getUserId_targets
                | run_operation options;
                  first [ exact I | apply targets_request, prefix_app ] ]).
Qed.

Lemma exports_target_their_base_witness :
  targets transferBaseURL
    (rename (Str "token")
       (Obj [("endpoint_xid", Str "abc"); ("old_path", Str "/a"); ("new_path", Str "/b")]) []).
Proof.
  apply (exports_target_their_base "rename" rename).
  - cbv [exports In]. do 24 right. left. reflexivity.
  - discriminate.
Defined.

Lemma getUserId_shaped (bearerToken options : value) (log : list request_call) :
  shaped (getUserId bearerToken options log).
Proof.
  run_operation options.
  - exact I.
  - destruct (prop options "userEmail"); try exact I.
    apply shaped_request. descriptor_shape_literal.
Qed.

(** Every request issued by an exported operation has one of four methods
    (none, POST, PUT, DELETE); a body is only ever sent together with
    [json: true] and with POST or PUT, and a PUT always has a body.  In
    particular no GET or DELETE request carries a body. *)
Theorem exports_descriptor_shape (name : string)
  (f : value -> value -> Eff promise) :
  In (name, f) exports ->
  forall (bearerToken options : value) (log : list request_call),
    shaped (f bearerToken options log).
Proof.
  intros Hin bearerToken options log.
  each_export Hin
    ltac:(first [ apply getUserId_shaped
                | run_operation options;
                  first [ exact I | apply shaped_request; descriptor_shape_literal ] ]).
Qed.

Lemma exports_descriptor_shape_witness :
  shaped (updateEndpointServerById (Str "token")
            (Obj [("endpoint_xid", Str "abc"); ("server_id", Num (Int 7))]) []).
Proof.
  apply (exports_descriptor_shape "updateEndpointServerById" updateEndpointServerById).
  cbv [exports In]. do 19 right. left. reflexivity.
Defined.

(** ** Further properties of single operations *)

(** *** [getUserId] *)

(** Without a string under [userEmail] (the field is missing, or holds
    something that has no [replace] method) [getUserId] throws a TypeError
    and issues no request. *)
Theorem getUserId_without_email_throws (bearerToken : value)
  (props : list (string * value)) (log : list request_call) :
  (forall s, prop (Obj props) "userEmail" <> Str s) ->
  getUserId bearerToken (Obj props) log = (Throw TypeError, log).
Proof.
  intros Hnot. unfold getUserId. rewrite Get_object. unfold bind, ret.
  destruct (prop (Obj props) "userEmail") eqn:E; try reflexivity.
  exfalso. exact (Hnot s eq_refl).
Qed.

Lemma getUserId_without_email_throws_witness :
  getUserId (Str "token") (Obj [("email", Str "user@example.org")]) []
  = (Throw TypeError, []).
Proof.
  apply (getUserId_without_email_throws (Str "token")
           [("email", Str "user@example.org")] []).
  intros s. simpl. discriminate.
Defined.

Lemma count_at_app (s t : string) : count_at (s ++ t) = count_at s + count_at t.
Proof.
  induction s as [|c s IH]; simpl.
  - reflexivity.
  - rewrite IH. lia.
Qed.

Lemma replace_at_split (pre post : string) :
  count_at pre = 0 ->
  replace "@" "%40" (pre ++ String "@" post) = pre ++ "%40" ++ post.
Proof.
  induction pre as [|c pre IH]; intros H.
  - change (replace "@" "%40" (String "@" post) = "%40" ++ post).
    rewrite replace_at_cons. reflexivity.
  - change (String c pre ++ String "@" post) with (String c (pre ++ String "@" post)).
    rewrite replace_at_cons. simpl in H.
    destruct (Ascii.eqb c "@").
    + discriminate.
    + rewrite IH by exact H. reflexivity.
Qed.

Lemma replace_at_absent (s : string) :
  count_at s = 0 -> replace "@" "%40" s = s.
Proof.
  intros H. rewrite replace_first_at_is_all by lia.
  apply percent_encode_at_id. exact H.
Qed.

(** [getUserId] rewrites the first [@] of the e-mail and nothing else:
    what precedes it and everything after it (further [@], [&], [+], ...)
    reach the query string verbatim. *)
Theorem getUserId_rewrites_first_at_only (bearerToken : value)
  (props : list (string * value)) (pre post : string) (log : list request_call) :
  prop (Obj props) "userEmail" = Str (pre ++ String "@" post) ->
  count_at pre = 0 ->
  getUserId bearerToken (Obj props) log =
  request (authBaseURL ++ "/identities?usernames=" ++ pre ++ "%40" ++ post)
          (Obj [("auth", Obj [("bearer", bearerToken)])]) log.
Proof.
  intros Hemail Hpre.
  rewrite (getUserId_request _ _ _ _ Hemail).
  rewrite replace_at_split by exact Hpre.
  reflexivity.
Qed.

Lemma getUserId_rewrites_first_at_only_witness :
  getUserId (Str "token") (Obj [("userEmail", Str "a+b@x.org&c=@d")]) []
  = request "https://auth.globus.org/v2/api/identities?usernames=a+b%40x.org&c=@d"
      (Obj [("auth", Obj [("bearer", Str "token")])]) [].
Proof.
  apply (getUserId_rewrites_first_at_only (Str "token")
           [("userEmail", Str "a+b@x.org&c=@d")] "a+b" "x.org&c=@d" []);
    reflexivity.
Defined.

(** The number of [@] left in the query string is one less than in the
    e-mail (zero when the e-mail has none). *)
Theorem getUserId_at_count (bearerToken : value)
  (props : list (string * value)) (email : string) (log : list request_call) :
  prop (Obj props) "userEmail" = Str email ->
  exists encoded,
    getUserId bearerToken (Obj props) log =
    request (authBaseURL ++ "/identities?usernames=" ++ encoded)
            (Obj [("auth", Obj [("bearer", bearerToken)])]) log
    /\ count_at encoded = count_at email - 1.
Proof.
  intros Hemail.
  exists (replace "@" "%40" email).
  split; [exact (getUserId_request _ _ _ _ Hemail)|].
  clear Hemail. induction email as [|c email IH].
  - reflexivity.
  - rewrite replace_at_cons. simpl.
    destruct (Ascii.eqb c "@") eqn:E; simpl.
    + lia.
    + rewrite E. simpl. exact IH.
Qed.

Lemma getUserId_at_count_witness :
  exists encoded,
    getUserId (Str "token") (Obj [("userEmail", Str "a@b@c.org")]) [] =
    request (authBaseURL ++ "/identities?usernames=" ++ encoded)
            (Obj [("auth", Obj [("bearer", Str "token")])]) []
    /\ count_at encoded = 1.
Proof.
  destruct (getUserId_at_count (Str "token") [("userEmail", Str "a@b@c.org")]
              "a@b@c.org" [] eq_refl) as (encoded & Hrun & Hcount).
  exists encoded. split; [exact Hrun | exact Hcount].
Defined.

(** An e-mail string without [@] is sent as it is. *)
Theorem getUserId_no_at_verbatim (bearerToken : value)
  (props : list (string * value)) (email : string) (log : list request_call) :
  prop (Obj props) "userEmail" = Str email ->
  count_at email = 0 ->
  getUserId bearerToken (Obj props) log =
  request (authBaseURL ++ "/identities?usernames=" ++ email)
          (Obj [("auth", Obj [("bearer", bearerToken)])]) log.
Proof.
  intros Hemail Hnone.
  rewrite (getUserId_request _ _ _ _ Hemail).
  rewrite replace_at_absent by exact Hnone.
  reflexivity.
Qed.

Lemma getUserId_no_at_verbatim_witness :
  getUserId (Str "token") (Obj [("userEmail", Str "someone")]) []
  = request "https://auth.globus.org/v2/api/identities?usernames=someone"
      (Obj [("auth", Obj [("bearer", Str "token")])]) [].
Proof.
  apply (getUserId_no_at_verbatim (Str "token") [("userEmail", Str "someone")]
           "someone" []); reflexivity.
Defined.

(** *** Access rules *)

(** [deleteAccessRule] addresses the access rule that
    [getAccessRulesListById] reads exactly when the caller puts the
    transfer base URL into the bag under [transferBaseURL]: then both issue
    their request to the same URL, or both throw because [endpoint_xid] or
    [id] cannot be converted to a string. *)
Theorem deleteAccessRule_url_with_supplied_base (bearerToken : value)
  (props : list (string * value)) (log : list request_call) :
  prop (Obj props) "transferBaseURL" = Str transferBaseURL ->
  url_of (deleteAccessRule bearerToken (Obj props) log)
  = url_of (getAccessRulesListById bearerToken (Obj props) log)
  /\ url_of (deleteAccessRule bearerToken (Obj props) log)
     = match ToString (prop (Obj props) "endpoint_xid"),
             ToString (prop (Obj props) "id") with
       | Some endpoint_xid, Some id =>
           Some (transferBaseURL ++ "/endpoint/" ++ endpoint_xid ++ "/access/" ++ id)
       | _, _ => None
       end.
Proof.
  intros Hbase. rewrite deleteAccessRule_request, Hbase.
  rewrite (ToStringE_some (Str transferBaseURL) transferBaseURL eq_refl).
  unfold getAccessRulesListById. rewrite !Get_object. unfold bind, ret.
  split; convert_all; reflexivity.
Qed.

Lemma deleteAccessRule_url_with_supplied_base_witness :
  url_of (deleteAccessRule (Str "token")
            (Obj [("transferBaseURL", Str "https://transfer.api.globusonline.org/v0.10");
                  ("endpoint_xid", Str "abc"); ("id", Num (Int 5))]) [])
  = Some "https://transfer.api.globusonline.org/v0.10/endpoint/abc/access/5".
Proof.
  exact (proj2 (deleteAccessRule_url_with_supplied_base (Str "token")
                  [("transferBaseURL", Str "https://transfer.api.globusonline.org/v0.10");
                   ("endpoint_xid", Str "abc"); ("id", Num (Int 5))] [] eq_refl)).
Defined.

(** For every bag without a [transferBaseURL] entry, the URL of the
    request [deleteAccessRule] issues starts with the text [undefined]; the
    request is issued whenever [endpoint_xid] and [id] convert to strings. *)
Theorem deleteAccessRule_url_without_base (bearerToken : value)
  (props : list (string * value)) (log : list request_call) :
  lookup "transferBaseURL" props = None ->
  url_of (deleteAccessRule bearerToken (Obj props) log)
  = match ToString (prop (Obj props) "endpoint_xid"),
          ToString (prop (Obj props) "id") with
    | Some endpoint_xid, Some id =>
        Some ("undefined/endpoint/" ++ endpoint_xid ++ "/access/" ++ id)
    | _, _ => None
    end.
Proof.
  intros Hnone. rewrite deleteAccessRule_request.
  rewrite (prop_absent props "transferBaseURL" Hnone).
  rewrite (ToStringE_some Undefined "undefined" eq_refl).
  unfold bind, ret. convert_all; reflexivity.
Qed.

Lemma deleteAccessRule_url_without_base_witness :
  url_of (deleteAccessRule (Str "token")
            (Obj [("endpoint_xid", Str "e-1"); ("id", Num (Int 42))]) [])
  = Some "undefined/endpoint/e-1/access/42".
Proof.
  exact (deleteAccessRule_url_without_base (Str "token")
           [("endpoint_xid", Str "e-1"); ("id", Num (Int 42))] [] eq_refl).
Defined.

(** [updateAccessRule] keeps the body and the URL on the same rule: when
    [endpoint_xid] and [id] convert to strings it sends POST to the URL that
    ends in the text of the body's [id], and every field of the body is the
    caller's; otherwise it throws a TypeError and sends nothing. *)
Theorem updateAccessRule_body_matches_url (bearerToken : value)
  (props : list (string * value)) (log : list request_call) :
  match ToString (prop (Obj props) "endpoint_xid"),
        ToString (prop (Obj props) "id") with
  | Some endpoint_xid, Some _ =>
      exists call,
        updateAccessRule bearerToken (Obj props) log
        = (Normal (ResponseOf call), (log ++ [call])%list)
        /\ call_method call = Str "POST"
        /\ (exists id,
              ToString (prop (call_body call) "id") = Some id
              /\ call_url call
                 = transferBaseURL ++ "/endpoint/" ++ endpoint_xid ++ "/access/" ++ id)
        /\ Forall (fun k => prop (call_body call) k = prop (Obj props) k)
             ["id"; "role_id"; "principal_type"; "principal"; "path"; "permissions"]
  | _, _ =>
      updateAccessRule bearerToken (Obj props) log = (Throw TypeError, log)
  end.
Proof.
  unfold updateAccessRule. read_bag.
  destruct (ToString (prop (Obj props) "endpoint_xid")) as [endpoint_xid|] eqn:Hx;
    [ rewrite (ToStringE_some _ _ Hx) | rewrite (ToStringE_none _ Hx); reflexivity ].
  destruct (ToString (prop (Obj props) "id")) as [id|] eqn:Hid;
    [ rewrite (ToStringE_some _ _ Hid) | rewrite (ToStringE_none _ Hid); reflexivity ].
  eexists. split; [reflexivity|].
  split; [reflexivity|].
  split; [exists id; split; [exact Hid | reflexivity]|].
  repeat constructor.
Qed.

(** [createAccessRule] reads four fields of the bag and no other: removing
    any other field ([permissions] and [emailMessage] among them) leaves the
    outcome unchanged. *)
Theorem createAccessRule_reads_four_fields (bearerToken : value)
  (props : list (string * value)) (field : string) (log : list request_call) :
  ~ In field ["endpoint_xid"; "userId"; "path"; "userEmail"] ->
  createAccessRule bearerToken (Obj props) log
  = createAccessRule bearerToken (Obj (delete field props)) log.
Proof.
  intros Hother.
  rewrite !createAccessRule_request.
  rewrite !prop_delete_other by (intros ->; apply Hother; simpl; auto).
  reflexivity.
Qed.

Lemma createAccessRule_reads_four_fields_witness :
  createAccessRule (Str "token")
    (Obj [("endpoint_xid", Str "abc"); ("userId", Str "u-1"); ("path", Str "/data/");
          ("emailMessage", Str "hello")]) []
  = createAccessRule (Str "token")
      (Obj [("endpoint_xid", Str "abc"); ("userId", Str "u-1"); ("path", Str "/data/")]) [].
Proof.
  apply (createAccessRule_reads_four_fields (Str "token")
           [("endpoint_xid", Str "abc"); ("userId", Str "u-1"); ("path", Str "/data/");
            ("emailMessage", Str "hello")] "emailMessage" []).
  simpl. intros [H | [H | [H | [H | []]]]]; discriminate H.
Defined.

(** *** Servers *)

Lemma or_truthy (a b : value) : ToBoolean a = true -> or a b = a.
Proof. intros H. unfold or. rewrite H. reflexivity. Qed.

(** A truthy [port] or [scheme] reaches the body of [addEndpointServer] and
    of [updateEndpointServerById] as the caller gave it (a numeric port
    stays a number).  (The request is issued whenever the identifiers
    spliced into the URL convert to strings; otherwise a TypeError is
    thrown.) *)
Theorem truthy_server_field_kept (bearerToken : value)
  (props : list (string * value)) (field : string) (log : list request_call) :
  field = "port" \/ field = "scheme" ->
  ToBoolean (prop (Obj props) field) = true ->
  match ToString (prop (Obj props) "endpoint_xid") with
  | Some _ =>
      exists call,
        addEndpointServer bearerToken (Obj props) log
          = (Normal (ResponseOf call), (log ++ [call])%list)
        /\ prop (call_body call) field = prop (Obj props) field
  | None =>
      addEndpointServer bearerToken (Obj props) log = (Throw TypeError, log)
  end
  /\ match ToString (prop (Obj props) "endpoint_xid"),
           ToString (prop (Obj props) "server_id") with
     | Some _, Some _ =>
         exists call,
           updateEndpointServerById bearerToken (Obj props) log
             = (Normal (ResponseOf call), (log ++ [call])%list)
           /\ prop (call_body call) field = prop (Obj props) field
     | _, _ =>
         updateEndpointServerById bearerToken (Obj props) log = (Throw TypeError, log)
     end.
Proof.
  intros [-> | ->] Htruthy;
    unfold addEndpointServer, updateEndpointServerById; read_bag;
    rewrite !(or_truthy _ _ Htruthy);
    (split; convert_all; try reflexivity; eexists; (split; reflexivity)).
Qed.

Lemma truthy_server_field_kept_witness :
  exists call,
    addEndpointServer (Str "token")
      (Obj [("endpoint_xid", Str "abc"); ("port", Num (Int 2812))]) []
    = (Normal (ResponseOf call), [call])
    /\ prop (call_body call) "port" = Num (Int 2812).
Proof.
  destruct (truthy_server_field_kept (Str "token")
              [("endpoint_xid", Str "abc"); ("port", Num (Int 2812))] "port" [])
    as [Hadd _].
  - left. reflexivity.
  - reflexivity.
  - exact Hadd.
Defined.

(** *** Directory listing *)

(** In [listDirectoryContents] a falsy [path] or [query_parameters] (an
    empty string, [0], [null], ...) counts as omitted. *)
Theorem listDirectoryContents_falsy_as_omitted (bearerToken : value)
  (props : list (string * value)) (field : string) (log : list request_call) :
  field = "path" \/ field = "query_parameters" ->
  ToBoolean (prop (Obj props) field) = false ->
  listDirectoryContents bearerToken (Obj props) log
  = listDirectoryContents bearerToken (Obj (delete field props)) log.
Proof.
  intros [-> | ->] Hfalsy;
    unfold listDirectoryContents; read_bag;
    rewrite (or_falsy _ _ Hfalsy).
  - forget_deleted "path". reflexivity.
  - forget_deleted "query_parameters". reflexivity.
Qed.

Lemma listDirectoryContents_falsy_as_omitted_witness :
  listDirectoryContents (Str "token")
    (Obj [("endpoint_xid", Str "abc"); ("path", Str "")]) []
  = listDirectoryContents (Str "token") (Obj [("endpoint_xid", Str "abc")]) [].
Proof.
  apply (listDirectoryContents_falsy_as_omitted (Str "token")
           [("endpoint_xid", Str "abc"); ("path", Str "")] "path" []).
  - left. reflexivity.
  - reflexivity.
Defined.

(** *** Transfer tasks *)

(** The body of [submitTransferTask] is [DATA_TYPE: 'transfer'] plus the
    thirteen listed option fields, each under its own name; any other field
    of the bag is dropped. *)
Theorem submitTransferTask_body (bearerToken : value)
  (props : list (string * value)) (log : list request_call) :
  exists call,
    submitTransferTask bearerToken (Obj props) log
    = (Normal (ResponseOf call), (log ++ [call])%list)
    /\ call_url call = transferBaseURL ++ "/transfer"
    /\ call_method call = Str "POST"
    /\ forall k,
         prop (call_body call) k
         = if String.eqb k "DATA_TYPE" then Str "transfer"
           else if existsb (String.eqb k) transfer_fields then prop (Obj props) k
           else Undefined.
Proof.
  eexists. split; [unfold submitTransferTask; read_bag; reflexivity|].
  split; [reflexivity|].
  split; [reflexivity|].
  intros k.
  unfold transfer_fields. simpl.
  repeat match goal with
         | |- context [String.eqb k ?s] =>
             destruct (String.eqb_spec k s) as [-> | ?];
             [ reflexivity | simpl ]
         end.
  reflexivity.
Qed.

(** *** Addressing *)

(** Identifiers are spliced into the URL as they are: an [endpoint_xid]
    that ends in [/server_list] makes [getEndpointById] issue the very
    request [getEndpointServerList] issues for the identifier before it. *)
Theorem endpoint_xid_not_escaped (bearerToken : value)
  (props props' : list (string * value)) (xid : string) (log : list request_call) :
  prop (Obj props) "endpoint_xid" = Str xid ->
  prop (Obj props') "endpoint_xid" = Str (xid ++ "/server_list") ->
  getEndpointById bearerToken (Obj props') log
  = getEndpointServerList bearerToken (Obj props) log.
Proof.
  intros Hxid Hxid'.
  unfold getEndpointById, getEndpointServerList. read_bag.
  rewrite Hxid, Hxid'. reflexivity.
Qed.

Lemma endpoint_xid_not_escaped_witness :
  getEndpointById (Str "token") (Obj [("endpoint_xid", Str "abc/server_list")]) []
  = getEndpointServerList (Str "token") (Obj [("endpoint_xid", Str "abc")]) [].
Proof.
  apply (endpoint_xid_not_escaped (Str "token")
           [("endpoint_xid", Str "abc")] [("endpoint_xid", Str "abc/server_list")]
           "abc" []); reflexivity.
Defined.

(** Reading, updating and deleting one resource use one URL: for every
    options argument the by-id operations on an endpoint agree on the URL,
    and so do those on an access rule and those on a server. *)
Theorem by_id_operations_share_url (bearerToken options : value)
  (log : list request_call) :
  url_of (getEndpointById bearerToken options log)
  = url_of (updateEndpointById bearerToken options log)
  /\ url_of (getEndpointById bearerToken options log)
     = url_of (deleteEndpointById bearerToken options log)
  /\ url_of (getAccessRulesListById bearerToken options log)
     = url_of (updateAccessRule bearerToken options log)
  /\ url_of (updateEndpointServerById bearerToken options log)
     = url_of (deleteEndpointServerById bearerToken options log).
Proof.
  destruct (nullish options) eqn:Hn;
    unfold getEndpointById, updateEndpointById, deleteEndpointById,
      getAccessRulesListById, updateAccessRule, updateEndpointServerById,
      deleteEndpointServerById;
    [ rewrite !(Get_nullish _ _ Hn) | rewrite !(Get_defined _ _ Hn) ];
    unfold bind, ret; convert_all;
    repeat split; reflexivity.
Qed.

(** *** The calls made by the tests *)

(** The tests pass the endpoint identifier itself where the options bag is
    expected.  For every such string the activation operations do issue a
    request, and its URL names the endpoint [undefined];
    [activateEndpoint] sends POST with an [undefined] body. *)
Theorem activation_with_string_options (bearerToken : value) (endpoint_xid : string)
  (log : list request_call) :
  getActivationRequirements bearerToken (Str endpoint_xid) log
  = request (transferBaseURL ++ "/endpoint/undefined/activation_requirements")
      (Obj [("auth", Obj [("bearer", bearerToken)])]) log
  /\ activateEndpoint bearerToken (Str endpoint_xid) log
     = request (transferBaseURL ++ "/endpoint/undefined/activate")
         (Obj [("auth", Obj [("bearer", bearerToken)]);
               ("method", Str "POST");
               ("body", Undefined);
               ("json", Bool true)]) log
  /\ deactivateEndpoint bearerToken (Str endpoint_xid) log
     = request (transferBaseURL ++ "/endpoint/undefined/deactivate")
         (Obj [("auth", Obj [("bearer", bearerToken)]);
               ("method", Str "POST")]) log.
Proof. repeat split; reflexivity. Qed.
